(** * The generated Windows plugin registrant

    A shallow embedding of
    [digi_lib_app/windows/flutter/generated_plugin_registrant.cc].

    The translation unit defines one function, [RegisterPlugins], which asks
    the host's [flutter::PluginRegistry] for a registrar ten times and hands
    each registrar to the C entry point of one plugin.  Both the registry and
    the entry points live outside the repository, so the embedding keeps them
    abstract: a registry is a record holding its one virtual method, the
    entry points are an arbitrary family of transformers of the host's world,
    and every theorem quantifies over both.  A second embedding of the same
    lines, in module [Throwing], lets the calls end by throwing. *)

From Stdlib Require Import String List NArith Bool Lia Permutation.
Import ListNotations.
Local Open Scope string_scope.
Local Open Scope list_scope.

(** ** Data *)

(** [FlutterDesktopPluginRegistrarRef]: an opaque pointer owned by the host.
    Only its address matters here; address [0] is the null pointer. *)
Definition Registrar := N.

Definition null_registrar : Registrar := 0%N.

(** The ten external entry points called by the file, named as in the
    source, in the order of their calls. *)
Inductive RegFn : Type :=
| AutoUpdaterPluginRegisterWithRegistrar
| BatteryPlusWindowsPluginRegisterWithRegistrar
| ConnectivityPlusWindowsPluginRegisterWithRegistrar
| DesktopDropPluginRegisterWithRegistrar
| FlutterSecureStorageWindowsPluginRegisterWithRegistrar
| HotkeyManagerWindowsPluginCApiRegisterWithRegistrar
| ScreenRetrieverPluginRegisterWithRegistrar
| SystemTrayPluginRegisterWithRegistrar
| UrlLauncherWindowsRegisterWithRegistrar
| WindowManagerPluginRegisterWithRegistrar.

Definition RegFn_eq_dec (f g : RegFn) : {f = g} + {f <> g}.
Proof. decide equality. Defined.

(** The identifier under which each entry point is called (lines 21-40). *)
Definition symbol (f : RegFn) : string :=
  match f with
  | AutoUpdaterPluginRegisterWithRegistrar =>
      "AutoUpdaterPluginRegisterWithRegistrar"
  | BatteryPlusWindowsPluginRegisterWithRegistrar =>
      "BatteryPlusWindowsPluginRegisterWithRegistrar"
  | ConnectivityPlusWindowsPluginRegisterWithRegistrar =>
      "ConnectivityPlusWindowsPluginRegisterWithRegistrar"
  | DesktopDropPluginRegisterWithRegistrar =>
      "DesktopDropPluginRegisterWithRegistrar"
  | FlutterSecureStorageWindowsPluginRegisterWithRegistrar =>
      "FlutterSecureStorageWindowsPluginRegisterWithRegistrar"
  | HotkeyManagerWindowsPluginCApiRegisterWithRegistrar =>
      "HotkeyManagerWindowsPluginCApiRegisterWithRegistrar"
  | ScreenRetrieverPluginRegisterWithRegistrar =>
      "ScreenRetrieverPluginRegisterWithRegistrar"
  | SystemTrayPluginRegisterWithRegistrar =>
      "SystemTrayPluginRegisterWithRegistrar"
  | UrlLauncherWindowsRegisterWithRegistrar =>
      "UrlLauncherWindowsRegisterWithRegistrar"
  | WindowManagerPluginRegisterWithRegistrar =>
      "WindowManagerPluginRegisterWithRegistrar"
  end.

(** The directory of the header included for each entry point (lines 9-18:
    [#include <package/header.h>]).  The headers themselves are not part of
    the repository; the includes and the calls are both sorted by package,
    which pairs them one to one. *)
Definition package (f : RegFn) : string :=
  match f with
  | AutoUpdaterPluginRegisterWithRegistrar => "auto_updater"
  | BatteryPlusWindowsPluginRegisterWithRegistrar => "battery_plus"
  | ConnectivityPlusWindowsPluginRegisterWithRegistrar => "connectivity_plus"
  | DesktopDropPluginRegisterWithRegistrar => "desktop_drop"
  | FlutterSecureStorageWindowsPluginRegisterWithRegistrar =>
      "flutter_secure_storage_windows"
  | HotkeyManagerWindowsPluginCApiRegisterWithRegistrar =>
      "hotkey_manager_windows"
  | ScreenRetrieverPluginRegisterWithRegistrar => "screen_retriever"
  | SystemTrayPluginRegisterWithRegistrar => "system_tray"
  | UrlLauncherWindowsRegisterWithRegistrar => "url_launcher_windows"
  | WindowManagerPluginRegisterWithRegistrar => "window_manager"
  end.

(** What an observer at the boundary of the translation unit sees: a call
    of [registry->GetRegistrarForPlugin(name)] with the registrar it
    returned, or a call of an entry point with its argument. *)
Inductive Event : Type :=
| GetRegistrar (name : string) (ret : Registrar)
| Register (f : RegFn) (arg : Registrar).

(** ** The host *)

(** [flutter::PluginRegistry] is an abstract class with one virtual method.
    The method may change the host's world [W] (an engine creates and keeps
    its registrars), so it is a state transformer returning a registrar. *)
Record PluginRegistry (W : Type) : Type := {
  GetRegistrarForPlugin : string -> W -> Registrar * W
}.
Arguments GetRegistrarForPlugin {W} _ _ _.

(** The entry points return [void]: a call that returns is a transformer
    of the host's world, and that is all its caller gets to see.  Calls
    that throw instead are the subject of module [Throwing] below. *)
Definition Plugins (W : Type) : Type := RegFn -> Registrar -> W -> W.

(** Memory as [RegisterPlugins] could touch it: the host's world and the
    application's own data (globals, statics, the heap of the runner). *)
Record Sys (W G : Type) : Type := {
  host : W;
  app : G
}.
Arguments host {W G} _.
Arguments app {W G} _.

(** ** Executions *)

(** A run either completes with a value, a final memory and the events it
    produced, or reaches undefined behaviour after some events. *)
Inductive Outcome (W G A : Type) : Type :=
| Done (a : A) (s : Sys W G) (t : list Event)
| Undefined (t : list Event).
Arguments Done {W G A} _ _ _.
Arguments Undefined {W G A} _.

Definition M (W G A : Type) : Type := Sys W G -> Outcome W G A.

Definition ret {W G A} (a : A) : M W G A := fun s => Done a s [].

Definition bind {W G A B} (m : M W G A) (k : A -> M W G B) : M W G B :=
  fun s =>
    match m s with
    | Done a s1 t1 =>
        match k a s1 with
        | Done b s2 t2 => Done b s2 (t1 ++ t2)
        | Undefined t2 => Undefined (t1 ++ t2)
        end
    | Undefined t1 => Undefined t1
    end.

Declare Scope exec_scope.
Delimit Scope exec_scope with exec.
Notation "x <- m ;; k" := (bind m (fun x => k))
  (at level 61, m at next level, right associativity) : exec_scope.
Notation "m ;; k" := (bind m (fun _ => k))
  (at level 61, right associativity) : exec_scope.
Local Open Scope exec_scope.

(** [p->...]: using a pointer.  A null pointer has no object behind it. *)
Definition deref {W G T} (p : option T) : M W G T :=
  fun s =>
    match p with
    | Some obj => Done obj s []
    | None => Undefined []
    end.

Section Program.

Context {W G : Type}.
Variable plugins : Plugins W.

(** [registry->GetRegistrarForPlugin(name)] *)
Definition get_registrar (registry : option (PluginRegistry W))
    (name : string) : M W G Registrar :=
  obj <- deref registry ;;
  fun s =>
    let res := GetRegistrarForPlugin obj name (host s) in
    Done (fst res) {| host := snd res; app := app s |}
         [GetRegistrar name (fst res)].

(** [f(registrar)] for an entry point [f]. *)
Definition call (f : RegFn) (registrar : Registrar) : M W G unit :=
  fun s =>
    Done tt {| host := plugins f registrar (host s); app := app s |}
         [Register f registrar].

(** [void RegisterPlugins(flutter::PluginRegistry* registry)], lines
    20-41: each argument is evaluated, then its call is made. *)
Definition RegisterPlugins (registry : option (PluginRegistry W))
    : M W G unit :=
  r <- get_registrar registry "AutoUpdaterPlugin" ;;
  call AutoUpdaterPluginRegisterWithRegistrar r ;;
  r <- get_registrar registry "BatteryPlusWindowsPlugin" ;;
  call BatteryPlusWindowsPluginRegisterWithRegistrar r ;;
  r <- get_registrar registry "ConnectivityPlusWindowsPlugin" ;;
  call ConnectivityPlusWindowsPluginRegisterWithRegistrar r ;;
  r <- get_registrar registry "DesktopDropPlugin" ;;
  call DesktopDropPluginRegisterWithRegistrar r ;;
  r <- get_registrar registry "FlutterSecureStorageWindowsPlugin" ;;
  call FlutterSecureStorageWindowsPluginRegisterWithRegistrar r ;;
  r <- get_registrar registry "HotkeyManagerWindowsPluginCApi" ;;
  call HotkeyManagerWindowsPluginCApiRegisterWithRegistrar r ;;
  r <- get_registrar registry "ScreenRetrieverPlugin" ;;
  call ScreenRetrieverPluginRegisterWithRegistrar r ;;
  r <- get_registrar registry "SystemTrayPlugin" ;;
  call SystemTrayPluginRegisterWithRegistrar r ;;
  r <- get_registrar registry "UrlLauncherWindows" ;;
  call UrlLauncherWindowsRegisterWithRegistrar r ;;
  r <- get_registrar registry "WindowManagerPlugin" ;;
  call WindowManagerPluginRegisterWithRegistrar r.

(** The same calls as a table: the name asked for and the entry point
    that is handed the answer, in source order. *)
Definition registrations : list (string * RegFn) :=
  [ ("AutoUpdaterPlugin", AutoUpdaterPluginRegisterWithRegistrar);
    ("BatteryPlusWindowsPlugin", BatteryPlusWindowsPluginRegisterWithRegistrar);
    ("ConnectivityPlusWindowsPlugin",
       ConnectivityPlusWindowsPluginRegisterWithRegistrar);
    ("DesktopDropPlugin", DesktopDropPluginRegisterWithRegistrar);
    ("FlutterSecureStorageWindowsPlugin",
       FlutterSecureStorageWindowsPluginRegisterWithRegistrar);
    ("HotkeyManagerWindowsPluginCApi",
       HotkeyManagerWindowsPluginCApiRegisterWithRegistrar);
    ("ScreenRetrieverPlugin", ScreenRetrieverPluginRegisterWithRegistrar);
    ("SystemTrayPlugin", SystemTrayPluginRegisterWithRegistrar);
    ("UrlLauncherWindows", UrlLauncherWindowsRegisterWithRegistrar);
    ("WindowManagerPlugin", WindowManagerPluginRegisterWithRegistrar) ].

(** A table of such calls run from top to bottom.  [RegisterPlugins] is
    shown below to be this loop unrolled on [registrations]. *)
Fixpoint register_all (registry : option (PluginRegistry W))
    (l : list (string * RegFn)) : M W G unit :=
  match l with
  | [] => ret tt
  | (name, f) :: l' =>
      r <- get_registrar registry name ;;
      call f r ;;
      register_all registry l'
  end.

(** What a sequence of events does to the host's world when the calls it
    records are made, one after the other, on the registry and the entry
    points. *)
Fixpoint replay (registry : PluginRegistry W) (t : list Event) (w : W) : W :=
  match t with
  | [] => w
  | GetRegistrar name _ :: t' =>
      replay registry t' (snd (GetRegistrarForPlugin registry name w))
  | Register f arg :: t' => replay registry t' (plugins f arg w)
  end.

(** Whether each recorded answer is the one the registry gives when the
    events are replayed from world [w]. *)
Fixpoint answers_match (registry : PluginRegistry W) (t : list Event)
    (w : W) : bool :=
  match t with
  | [] => true
  | GetRegistrar name r :: t' =>
      N.eqb r (fst (GetRegistrarForPlugin registry name w))
      && answers_match registry t' (snd (GetRegistrarForPlugin registry name w))
  | Register f arg :: t' => answers_match registry t' (plugins f arg w)
  end.

End Program.

(** ** Reading a sequence of events *)

(** The names asked for, in order. *)
Fixpoint requested (t : list Event) : list string :=
  match t with
  | [] => []
  | GetRegistrar name _ :: t' => name :: requested t'
  | Register _ _ :: t' => requested t'
  end.

(** The registrars the registry returned, in order. *)
Fixpoint returned (t : list Event) : list Registrar :=
  match t with
  | [] => []
  | GetRegistrar _ r :: t' => r :: returned t'
  | Register _ _ :: t' => returned t'
  end.

(** The entry points called, in order. *)
Fixpoint registered (t : list Event) : list RegFn :=
  match t with
  | [] => []
  | GetRegistrar _ _ :: t' => registered t'
  | Register f _ :: t' => f :: registered t'
  end.

(** The registrars handed to the entry points, in order. *)
Fixpoint passed (t : list Event) : list Registrar :=
  match t with
  | [] => []
  | GetRegistrar _ _ :: t' => passed t'
  | Register _ arg :: t' => arg :: passed t'
  end.

(** One statement of the source, [f(registry->GetRegistrarForPlugin(name))],
    as it shows in the events: the name, the registrar that came back and
    went in, and the entry point. *)
Record Registration : Type := {
  plugin_name : string;
  registrar : Registrar;
  entry_point : RegFn
}.

Definition registration_events (p : Registration) : list Event :=
  [GetRegistrar (plugin_name p) (registrar p);
   Register (entry_point p) (registrar p)].

(** Splits a sequence of events into such statements; [None] when it is
    not a sequence of lookups each followed at once by a call on the
    registrar just returned. *)
Fixpoint call_pairs (t : list Event) : option (list Registration) :=
  match t with
  | [] => Some []
  | GetRegistrar name r :: Register f arg :: t' =>
      if N.eqb r arg then
        match call_pairs t' with
        | Some ps =>
            Some ({| plugin_name := name; registrar := r; entry_point := f |}
                    :: ps)
        | None => None
        end
      else None
  | _ => None
  end.

(** The events without the registrars: what is asked and what is called,
    whatever the host answers. *)
Inductive Step : Type :=
| AskFor (name : string)
| Invoke (f : RegFn).

Definition step_of (e : Event) : Step :=
  match e with
  | GetRegistrar name _ => AskFor name
  | Register f _ => Invoke f
  end.

(** The steps written in a table of calls. *)
Definition steps_of_table (l : list (string * RegFn)) : list Step :=
  flat_map (fun x => [AskFor (fst x); Invoke (snd x)]) l.

Definition is_nonnull (r : Registrar) : Prop := r <> null_registrar.

(** The suffix that turns a plugin's name into the name of its entry
    point. *)
Definition entry_suffix : string := "RegisterWithRegistrar".

(** ** What the plugins are for *)

(** Modelled from the spec: what a plugin package offers is decided by the
    package, which is not in the repository.  The spec's purpose paragraph
    lists "battery status, connectivity, drag-and-drop, secure storage,
    hotkeys, screen info, system tray, URL launching, window management,
    auto-update"; these are its ten items. *)
Inductive Capability : Type :=
| BatteryStatus
| Connectivity
| DragAndDrop
| SecureStorage
| Hotkeys
| ScreenInfo
| SystemTray
| UrlLaunching
| WindowManagement
| AutoUpdate.

(** Modelled from the spec: the list of the purpose paragraph, in the
    order in which it is written there. *)
Definition stated_capabilities : list Capability :=
  [BatteryStatus; Connectivity; DragAndDrop; SecureStorage; Hotkeys;
   ScreenInfo; SystemTray; UrlLaunching; WindowManagement; AutoUpdate].

(** Modelled from the spec: the item of that list a package stands for,
    read off the package's name; a package of any other name stands for
    none of them. *)
Definition capability_of_package (p : string) : option Capability :=
  if String.eqb p "battery_plus" then Some BatteryStatus
  else if String.eqb p "connectivity_plus" then Some Connectivity
  else if String.eqb p "desktop_drop" then Some DragAndDrop
  else if String.eqb p "flutter_secure_storage_windows" then Some SecureStorage
  else if String.eqb p "hotkey_manager_windows" then Some Hotkeys
  else if String.eqb p "screen_retriever" then Some ScreenInfo
  else if String.eqb p "system_tray" then Some SystemTray
  else if String.eqb p "url_launcher_windows" then Some UrlLaunching
  else if String.eqb p "window_manager" then Some WindowManagement
  else if String.eqb p "auto_updater" then Some AutoUpdate
  else None.

(** ** Two hosts to run the code on *)

(** A small engine: it remembers the registrars it has issued and which
    entry point was bound to which registrar. *)
Record Engine : Type := {
  issued : list (string * Registrar);
  bound : list (RegFn * Registrar)
}.

(** Issues a fresh registrar, never null, at every request. *)
Definition engine_registry : PluginRegistry Engine :=
  {| GetRegistrarForPlugin := fun name w =>
       let r := N.succ (N.of_nat (length (issued w))) in
       (r, {| issued := issued w ++ [(name, r)]; bound := bound w |}) |}.

(** A registry with no registrar to give: it answers null to every name. *)
Definition exhausted_registry : PluginRegistry Engine :=
  {| GetRegistrarForPlugin := fun name w => (null_registrar, w) |}.

Definition engine_plugins : Plugins Engine :=
  fun f r w => {| issued := issued w; bound := bound w ++ [(f, r)] |}.

Definition engine_start : Sys Engine nat :=
  {| host := {| issued := []; bound := [] |}; app := 7 |}.

(** A registry that keeps one registrar per name of the table, numbered
    from [1] in the table's order, and has none (null) for any other name.
    It never changes the engine. *)
Fixpoint slot_from (k : N) (names : list string) (name : string)
    : Registrar :=
  match names with
  | [] => null_registrar
  | x :: rest =>
      if String.eqb x name then k else slot_from (N.succ k) rest name
  end.

Definition slot_of (name : string) : Registrar :=
  slot_from 1%N (map fst registrations) name.

Definition named_registry : PluginRegistry Engine :=
  {| GetRegistrarForPlugin := fun name w => (slot_of name, w) |}.

(** ** Calls that may throw *)

(** Nothing in the file says that the registry's method or an entry point
    cannot throw, and [RegisterPlugins] has no [try].  The same twenty
    lines are embedded here a second time, over a registry and entry
    points whose calls end either by returning or by throwing. *)
Module Throwing.

(** How a call ends; either way it may have changed the host's world. *)
Inductive Ending (W E A : Type) : Type :=
| Returns (a : A) (w : W)
| Throws (e : E) (w : W).
Arguments Returns {W E A} _ _.
Arguments Throws {W E A} _ _.

Record PluginRegistry (W E : Type) : Type := {
  GetRegistrarForPlugin : string -> W -> Ending W E Registrar
}.
Arguments GetRegistrarForPlugin {W E} _ _ _.

Definition Plugins (W E : Type) : Type :=
  RegFn -> Registrar -> W -> Ending W E unit.

(** A call under way: a lookup by name, or an entry point with its
    argument. *)
Inductive Attempt : Type :=
| Asking (name : string)
| Calling (f : RegFn) (arg : Registrar).

Definition step_of_attempt (c : Attempt) : Step :=
  match c with
  | Asking name => AskFor name
  | Calling f _ => Invoke f
  end.

(** A run completes, or is left by an exception [e] thrown by the call
    [c], or reaches undefined behaviour.  The events are those of the
    calls that returned. *)
Inductive Outcome (W G E A : Type) : Type :=
| Done (a : A) (s : Sys W G) (t : list Event)
| Thrown (e : E) (c : Attempt) (s : Sys W G) (t : list Event)
| Undefined (t : list Event).
Arguments Done {W G E A} _ _ _.
Arguments Thrown {W G E A} _ _ _ _.
Arguments Undefined {W G E A} _.

Definition M (W G E A : Type) : Type := Sys W G -> Outcome W G E A.

Definition ret {W G E A} (a : A) : M W G E A := fun s => Done a s [].

(** Sequencing.  There is no handler: an exception ends what follows. *)
Definition bind {W G E A B} (m : M W G E A) (k : A -> M W G E B)
    : M W G E B :=
  fun s =>
    match m s with
    | Done a s1 t1 =>
        match k a s1 with
        | Done b s2 t2 => Done b s2 (t1 ++ t2)
        | Thrown e c s2 t2 => Thrown e c s2 (t1 ++ t2)
        | Undefined t2 => Undefined (t1 ++ t2)
        end
    | Thrown e c s1 t1 => Thrown e c s1 t1
    | Undefined t1 => Undefined t1
    end.

Declare Scope throwing_scope.
Delimit Scope throwing_scope with throwing.
Notation "x <- m ;; k" := (bind m (fun x => k))
  (at level 61, m at next level, right associativity) : throwing_scope.
Notation "m ;; k" := (bind m (fun _ => k))
  (at level 61, right associativity) : throwing_scope.
Local Open Scope throwing_scope.

Definition deref {W G E T} (p : option T) : M W G E T :=
  fun s =>
    match p with
    | Some obj => Done obj s []
    | None => Undefined []
    end.

Section Program.

Context {W G E : Type}.
Variable plugins : Plugins W E.

(** [registry->GetRegistrarForPlugin(name)] *)
Definition get_registrar (registry : option (PluginRegistry W E))
    (name : string) : M W G E Registrar :=
  obj <- deref registry ;;
  fun s =>
    match GetRegistrarForPlugin obj name (host s) with
    | Returns r w => Done r {| host := w; app := app s |} [GetRegistrar name r]
    | Throws e w => Thrown e (Asking name) {| host := w; app := app s |} []
    end.

(** [f(registrar)] for an entry point [f]. *)
Definition call (f : RegFn) (registrar : Registrar) : M W G E unit :=
  fun s =>
    match plugins f registrar (host s) with
    | Returns _ w =>
        Done tt {| host := w; app := app s |} [Register f registrar]
    | Throws e w =>
        Thrown e (Calling f registrar) {| host := w; app := app s |} []
    end.

(** [void RegisterPlugins(flutter::PluginRegistry* registry)], lines
    20-41. *)
Definition RegisterPlugins (registry : option (PluginRegistry W E))
    : M W G E unit :=
  r <- get_registrar registry "AutoUpdaterPlugin" ;;
  call AutoUpdaterPluginRegisterWithRegistrar r ;;
  r <- get_registrar registry "BatteryPlusWindowsPlugin" ;;
  call BatteryPlusWindowsPluginRegisterWithRegistrar r ;;
  r <- get_registrar registry "ConnectivityPlusWindowsPlugin" ;;
  call ConnectivityPlusWindowsPluginRegisterWithRegistrar r ;;
  r <- get_registrar registry "DesktopDropPlugin" ;;
  call DesktopDropPluginRegisterWithRegistrar r ;;
  r <- get_registrar registry "FlutterSecureStorageWindowsPlugin" ;;
  call FlutterSecureStorageWindowsPluginRegisterWithRegistrar r ;;
  r <- get_registrar registry "HotkeyManagerWindowsPluginCApi" ;;
  call HotkeyManagerWindowsPluginCApiRegisterWithRegistrar r ;;
  r <- get_registrar registry "ScreenRetrieverPlugin" ;;
  call ScreenRetrieverPluginRegisterWithRegistrar r ;;
  r <- get_registrar registry "SystemTrayPlugin" ;;
  call SystemTrayPluginRegisterWithRegistrar r ;;
  r <- get_registrar registry "UrlLauncherWindows" ;;
  call UrlLauncherWindowsRegisterWithRegistrar r ;;
  r <- get_registrar registry "WindowManagerPlugin" ;;
  call WindowManagerPluginRegisterWithRegistrar r.

(** The calls of a table, from top to bottom. *)
Fixpoint register_all (registry : option (PluginRegistry W E))
    (l : list (string * RegFn)) : M W G E unit :=
  match l with
  | [] => ret tt
  | (name, f) :: l' =>
      r <- get_registrar registry name ;;
      call f r ;;
      register_all registry l'
  end.

(** [completes registry w t w']: made one after the other from world
    [w], the calls recorded in [t] all return, with the answers recorded,
    and leave world [w']. *)
Inductive completes (registry : PluginRegistry W E)
    : W -> list Event -> W -> Prop :=
| completes_nil (w : W) : completes registry w [] w
| completes_lookup (name : string) (r : Registrar) (w w1 w2 : W)
    (t : list Event) :
    GetRegistrarForPlugin registry name w = Returns r w1 ->
    completes registry w1 t w2 ->
    completes registry w (GetRegistrar name r :: t) w2
| completes_call (f : RegFn) (arg : Registrar) (w w1 w2 : W)
    (t : list Event) :
    plugins f arg w = Returns tt w1 ->
    completes registry w1 t w2 ->
    completes registry w (Register f arg :: t) w2.

(** [threw registry c w e w']: made in world [w], the call [c] throws [e]
    and leaves world [w']. *)
Definition threw (registry : PluginRegistry W E) (c : Attempt) (w : W)
    (e : E) (w' : W) : Prop :=
  match c with
  | Asking name => GetRegistrarForPlugin registry name w = Throws e w'
  | Calling f arg => plugins f arg w = Throws e w'
  end.

End Program.

End Throwing.

(** A registry and entry points that always return, seen as ones that
    may throw. *)
Definition returning_registry {W : Type} (E : Type)
    (registry : PluginRegistry W) : Throwing.PluginRegistry W E :=
  {| Throwing.GetRegistrarForPlugin := fun name w =>
       let res := GetRegistrarForPlugin registry name w in
       Throwing.Returns (fst res) (snd res) |}.

Definition returning_plugins {W : Type} (E : Type) (plugins : Plugins W)
    : Throwing.Plugins W E :=
  fun f r w => Throwing.Returns tt (plugins f r w).

Definition returning_outcome {W G A : Type} (E : Type)
    (o : Outcome W G A) : Throwing.Outcome W G E A :=
  match o with
  | Done a s t => Throwing.Done a s t
  | Undefined t => Throwing.Undefined t
  end.

(** Entry points of which the fourth, the drag-and-drop plugin's, fails
    by throwing; the others bind as the engine's do. *)
Definition faulty_plugins : Throwing.Plugins Engine string :=
  fun f r w =>
    match f with
    | DesktopDropPluginRegisterWithRegistrar =>
        Throwing.Throws "registration failed" w
    | _ => Throwing.Returns tt (engine_plugins f r w)
    end.

(** * Properties *)

(** ** The code is the table, unrolled *)

Section Runs.

Context {W G : Type}.
Variable plugins : Plugins W.

Lemma bind_ext {A B : Type} (m : M W G A) (k k' : A -> M W G B) :
  (forall a s, k a s = k' a s) -> forall s, bind m k s = bind m k' s.
Proof.
  intros Hk s. unfold bind. destruct (m s); [rewrite Hk |]; reflexivity.
Qed.

Lemma RegisterPlugins_unrolled (registry : option (PluginRegistry W))
    (s : Sys W G) :
  RegisterPlugins plugins registry s
  = register_all plugins registry registrations s.
Proof.
  unfold RegisterPlugins, registrations. cbn [register_all].
  repeat (apply bind_ext; intros).
  unfold bind, call, ret. reflexivity.
Qed.

Lemma register_all_cons (registry : PluginRegistry W) (name : string)
    (f : RegFn) (l : list (string * RegFn)) (s : Sys W G) :
  register_all plugins (Some registry) ((name, f) :: l) s
  = let res := GetRegistrarForPlugin registry name (host s) in
    match register_all plugins (Some registry) l
            {| host := plugins f (fst res) (snd res); app := app s |} with
    | Done b s2 t2 =>
        Done b s2 (GetRegistrar name (fst res) :: Register f (fst res) :: t2)
    | Undefined t2 =>
        Undefined (GetRegistrar name (fst res) :: Register f (fst res) :: t2)
    end.
Proof.
  cbn. unfold bind. cbn.
  destruct (register_all plugins (Some registry) l _); reflexivity.
Qed.

Lemma register_all_runs (registry : PluginRegistry W)
    (l : list (string * RegFn)) :
  forall s : Sys W G, exists s' ps,
    register_all plugins (Some registry) l s
    = Done tt s' (flat_map registration_events ps)
    /\ map plugin_name ps = map fst l
    /\ map entry_point ps = map snd l
    /\ app s' = app s
    /\ host s' = replay plugins registry (flat_map registration_events ps)
                   (host s)
    /\ answers_match plugins registry (flat_map registration_events ps)
         (host s) = true.
Proof.
  induction l as [| [name f] l IH]; intro s.
  - exists s, []. cbn. repeat split; reflexivity.
  - rewrite register_all_cons. cbv zeta.
    set (res := GetRegistrarForPlugin registry name (host s)).
    destruct (IH {| host := plugins f (fst res) (snd res); app := app s |})
      as (s' & ps & Hrun & Hnames & Hfns & Happ & Hhost & Hans).
    rewrite Hrun.
    exists s',
      ({| plugin_name := name; registrar := fst res; entry_point := f |} :: ps).
    cbn in *. fold res.
    rewrite Hnames, Hfns, N.eqb_refl.
    repeat split; assumption.
Qed.

Lemma RegisterPlugins_runs (registry : PluginRegistry W) (s : Sys W G) :
  exists s' ps,
    RegisterPlugins plugins (Some registry) s
    = Done tt s' (flat_map registration_events ps)
    /\ map plugin_name ps = map fst registrations
    /\ map entry_point ps = map snd registrations
    /\ app s' = app s
    /\ host s' = replay plugins registry (flat_map registration_events ps)
                   (host s)
    /\ answers_match plugins registry (flat_map registration_events ps)
         (host s) = true.
Proof.
  rewrite RegisterPlugins_unrolled. apply register_all_runs.
Qed.

Lemma RegisterPlugins_null (s : Sys W G) :
  RegisterPlugins plugins None s = Undefined [].
Proof. reflexivity. Qed.

End Runs.

(** ** Events of a list of statements *)

Lemma call_pairs_events (ps : list Registration) :
  call_pairs (flat_map registration_events ps) = Some ps.
Proof.
  induction ps as [| [name r f] ps IH]; cbn; [reflexivity |].
  cbn in IH. now rewrite N.eqb_refl, IH.
Qed.

Lemma requested_events (ps : list Registration) :
  requested (flat_map registration_events ps) = map plugin_name ps.
Proof. induction ps as [| p ps IH]; cbn; [| rewrite IH]; reflexivity. Qed.

Lemma registered_events (ps : list Registration) :
  registered (flat_map registration_events ps) = map entry_point ps.
Proof. induction ps as [| p ps IH]; cbn; [| rewrite IH]; reflexivity. Qed.

Lemma returned_events (ps : list Registration) :
  returned (flat_map registration_events ps) = map registrar ps.
Proof. induction ps as [| p ps IH]; cbn; [| rewrite IH]; reflexivity. Qed.

Lemma passed_events (ps : list Registration) :
  passed (flat_map registration_events ps) = map registrar ps.
Proof. induction ps as [| p ps IH]; cbn; [| rewrite IH]; reflexivity. Qed.

Lemma length_events (ps : list Registration) :
  length (flat_map registration_events ps) = 2 * length ps.
Proof. induction ps as [| p ps IH]; cbn; [| rewrite IH; lia]; reflexivity. Qed.

Lemma steps_events (ps : list Registration) :
  map step_of (flat_map registration_events ps)
  = steps_of_table (combine (map plugin_name ps) (map entry_point ps)).
Proof.
  induction ps as [| p ps IH]; cbn; [| cbn in IH; rewrite IH]; reflexivity.
Qed.

(** A property of the name and the entry point of every statement can be
    checked on the table the statements come from. *)
Lemma Forall_registrations (Q : string -> RegFn -> Prop)
    (ps : list Registration) :
  forall l : list (string * RegFn),
    map plugin_name ps = map fst l ->
    map entry_point ps = map snd l ->
    Forall (fun x => Q (fst x) (snd x)) l ->
    Forall (fun p => Q (plugin_name p) (entry_point p)) ps.
Proof.
  induction ps as [| p ps IH]; intros l Hn Hf HQ; [constructor |].
  destruct l as [| x l]; [discriminate |].
  cbn in Hn, Hf. injection Hn as Hn1 Hn. injection Hf as Hf1 Hf.
  inversion HQ as [| ? ? Hx Hl]; subst.
  constructor; [rewrite Hn1, Hf1; assumption | now apply (IH l)].
Qed.

Lemma registrations_names_distinct : NoDup (map fst registrations).
Proof.
  cbn. repeat constructor; cbn; intuition discriminate.
Qed.

Lemma registrations_entry_points_distinct : NoDup (map snd registrations).
Proof.
  cbn. repeat constructor; cbn; intuition discriminate.
Qed.

(** With a registry whose answer depends on the name alone, the registrar
    of every statement is the answer for its name. *)
Lemma answers_of_names {W : Type} (plugins : Plugins W)
    (registry : PluginRegistry W) (h : string -> Registrar) :
  (forall name w, fst (GetRegistrarForPlugin registry name w) = h name) ->
  forall ps w,
    answers_match plugins registry (flat_map registration_events ps) w = true ->
    map registrar ps = map h (map plugin_name ps).
Proof.
  intros Hh ps.
  induction ps as [| p ps IH]; intros w Hans; [reflexivity |].
  cbn in Hans. apply andb_true_iff in Hans as [Hp Hans].
  apply N.eqb_eq in Hp. cbn.
  rewrite Hp, Hh. f_equal. exact (IH _ Hans).
Qed.

(** ** A run on the small engine *)

(** The engine ends with the ten entry points bound, in source order, to
    the registrars it issued for their names; the application's memory is
    untouched. *)
Example engine_run_binds_all :
  match RegisterPlugins engine_plugins (Some engine_registry) engine_start with
  | Done _ s' _ =>
      bound (host s')
      = [(AutoUpdaterPluginRegisterWithRegistrar, 1%N);
         (BatteryPlusWindowsPluginRegisterWithRegistrar, 2%N);
         (ConnectivityPlusWindowsPluginRegisterWithRegistrar, 3%N);
         (DesktopDropPluginRegisterWithRegistrar, 4%N);
         (FlutterSecureStorageWindowsPluginRegisterWithRegistrar, 5%N);
         (HotkeyManagerWindowsPluginCApiRegisterWithRegistrar, 6%N);
         (ScreenRetrieverPluginRegisterWithRegistrar, 7%N);
         (SystemTrayPluginRegisterWithRegistrar, 8%N);
         (UrlLauncherWindowsRegisterWithRegistrar, 9%N);
         (WindowManagerPluginRegisterWithRegistrar, 10%N)]
      /\ map fst (issued (host s')) = map fst registrations
      /\ app s' = app engine_start
  | Undefined _ => False
  end.
Proof. vm_compute. repeat split; reflexivity. Qed.

(** Without a registry nothing happens before the run goes wrong. *)
Example engine_run_on_null :
  RegisterPlugins engine_plugins None engine_start = Undefined [].
Proof. reflexivity. Qed.

(** ** Properties of [RegisterPlugins] *)

(** Runs the registrant on a registry object and names what the run
    lemma gives. *)
Ltac run_registrant plugins registry s :=
  let s' := fresh "s'" in
  let ps := fresh "ps" in
  destruct (RegisterPlugins_runs plugins registry s)
    as (s' & ps & ?Hrun & ?Hnames & ?Hfns & ?Happ & ?Hhost & ?Hans);
  exists s', (flat_map registration_events ps);
  split; [assumption |].

(** C1: on every registry, [RegisterPlugins] makes exactly ten calls of
    entry points, and each of the ten entry points is called exactly
    once. *)
Theorem RegisterPlugins_calls_each_entry_point_once :
  forall (W G : Type) (plugins : Plugins W) (registry : PluginRegistry W)
         (s : Sys W G),
  exists s' t,
    RegisterPlugins plugins (Some registry) s = Done tt s' t
    /\ length (registered t) = 10
    /\ forall f : RegFn, count_occ RegFn_eq_dec (registered t) f = 1.
Proof.
  intros W G plugins registry s. run_registrant plugins registry s.
  rewrite registered_events, Hfns. split; [reflexivity |].
  intros f; destruct f; reflexivity.
Qed.

(** C2: the run is ten statements [f(registry->GetRegistrarForPlugin(name))]:
    each call of an entry point follows a lookup and receives the registrar
    that lookup returned, the registrar is the registry's own answer, and
    the entry point called is the one named after the string looked up
    ([name] followed by [RegisterWithRegistrar]). *)
Theorem RegisterPlugins_name_matches_entry_point :
  forall (W G : Type) (plugins : Plugins W) (registry : PluginRegistry W)
         (s : Sys W G),
  exists s' t ps,
    RegisterPlugins plugins (Some registry) s = Done tt s' t
    /\ call_pairs t = Some ps
    /\ length ps = 10
    /\ answers_match plugins registry t (host s) = true
    /\ Forall (fun p => symbol (entry_point p)
                        = (plugin_name p ++ entry_suffix)%string) ps.
Proof.
  intros W G plugins registry s.
  destruct (RegisterPlugins_runs plugins registry s)
    as (s' & ps & Hrun & Hnames & Hfns & _ & _ & Hans).
  exists s', (flat_map registration_events ps), ps.
  repeat split; try assumption.
  - apply call_pairs_events.
  - rewrite <- (length_map plugin_name), Hnames. reflexivity.
  - apply (Forall_registrations
             (fun name f => symbol f = (name ++ entry_suffix)%string)
             ps registrations Hnames Hfns).
    repeat constructor.
Qed.

(** C3, against the claim as stated: a registry may answer null, and then
    every entry point is called with the null registrar. *)
Lemma null_registrar_is_passed_on :
  exists s' t,
    RegisterPlugins engine_plugins (Some exhausted_registry) engine_start
    = Done tt s' t
    /\ passed t = repeat null_registrar 10
    /\ ~ Forall is_nonnull (passed t).
Proof.
  eexists; eexists. split; [vm_compute; reflexivity |].
  split; [reflexivity |].
  intro H. inversion H as [| r l Hr Hl]. now apply Hr.
Qed.

(** C3, amended: each of the ten entry points is called with exactly the
    registrar the registry returned for its name, whatever that value is:
    [RegisterPlugins] does not check it.  So none of the ten registrars
    passed is null when the registry never answers null, and all ten are
    null when the registry answers null. *)
Theorem RegisterPlugins_passes_registrars_unchanged :
  forall (W G : Type) (plugins : Plugins W) (registry : PluginRegistry W)
         (s : Sys W G),
  exists s' t ps,
    RegisterPlugins plugins (Some registry) s = Done tt s' t
    /\ call_pairs t = Some ps
    /\ length ps = 10
    /\ answers_match plugins registry t (host s) = true
    /\ passed t = returned t
    /\ length (passed t) = 10
    /\ ((forall name w,
            is_nonnull (fst (GetRegistrarForPlugin registry name w))) ->
        Forall is_nonnull (passed t))
    /\ ((forall name w,
            fst (GetRegistrarForPlugin registry name w) = null_registrar) ->
        passed t = repeat null_registrar 10).
Proof.
  intros W G plugins registry s.
  destruct (RegisterPlugins_runs plugins registry s)
    as (s' & ps & Hrun & Hnames & Hfns & _ & _ & Hans).
  exists s', (flat_map registration_events ps), ps.
  assert (Hlen : length ps = 10)
    by (rewrite <- (length_map plugin_name), Hnames; reflexivity).
  split; [assumption |].
  split; [apply call_pairs_events |].
  split; [assumption |].
  split; [assumption |].
  rewrite passed_events, returned_events.
  split; [reflexivity |].
  split; [rewrite length_map; assumption |].
  split.
  - intros Hnonnull.
    clear Hnames Hfns Hrun Hlen.
    revert Hans. generalize (host s).
    induction ps as [| p ps IH]; intros w Hans; [constructor |].
    cbn in Hans. apply andb_true_iff in Hans as [Hp Hans].
    apply N.eqb_eq in Hp.
    constructor; [rewrite Hp; apply Hnonnull | exact (IH _ Hans)].
  - intros Hnull.
    rewrite (answers_of_names plugins registry (fun _ => null_registrar)
               Hnull ps (host s) Hans).
    rewrite <- Hlen, <- (length_map plugin_name).
    generalize (map plugin_name ps). intros l.
    induction l as [| x l IH]; cbn; [| rewrite IH]; reflexivity.
Qed.

Lemma RegisterPlugins_passes_registrars_unchanged_witness :
  (forall name w,
      is_nonnull (fst (GetRegistrarForPlugin engine_registry name w)))
  /\ exists s' t,
       RegisterPlugins engine_plugins (Some engine_registry) engine_start
       = Done tt s' t
       /\ passed t = returned t
       /\ length (passed t) = 10
       /\ Forall is_nonnull (passed t).
Proof.
  assert (H : forall name w,
             is_nonnull (fst (GetRegistrarForPlugin engine_registry name w))).
  { intros name w. unfold is_nonnull, null_registrar. simpl. lia. }
  split; [exact H |].
  destruct (RegisterPlugins_passes_registrars_unchanged
              Engine nat engine_plugins engine_registry engine_start)
    as (s' & t & ps & Hrun & _ & _ & _ & Heq & Hlen & Hnonnull & _).
  exists s', t.
  repeat split; [exact Hrun | exact Heq | exact Hlen | exact (Hnonnull H)].
Defined.

(** C4: on every registry the ten entry points are called in one fixed
    order, and the whole sequence of lookups and calls, registrars left
    out, is the same list whatever the registry answers and whatever the
    plugins do. *)
Theorem RegisterPlugins_fixed_sequence :
  forall (W G : Type) (plugins : Plugins W) (registry : PluginRegistry W)
         (s : Sys W G),
  exists s' t,
    RegisterPlugins plugins (Some registry) s = Done tt s' t
    /\ registered t
       = [AutoUpdaterPluginRegisterWithRegistrar;
          BatteryPlusWindowsPluginRegisterWithRegistrar;
          ConnectivityPlusWindowsPluginRegisterWithRegistrar;
          DesktopDropPluginRegisterWithRegistrar;
          FlutterSecureStorageWindowsPluginRegisterWithRegistrar;
          HotkeyManagerWindowsPluginCApiRegisterWithRegistrar;
          ScreenRetrieverPluginRegisterWithRegistrar;
          SystemTrayPluginRegisterWithRegistrar;
          UrlLauncherWindowsRegisterWithRegistrar;
          WindowManagerPluginRegisterWithRegistrar]
    /\ map step_of t = steps_of_table registrations.
Proof.
  intros W G plugins registry s. run_registrant plugins registry s.
  rewrite registered_events, steps_events, Hfns, Hnames.
  split; reflexivity.
Qed.

(** *** Runs in which a call may throw *)

Lemma throwing_bind_ext {W G E A B : Type} (m : Throwing.M W G E A)
    (k k' : A -> Throwing.M W G E B) :
  (forall a s, k a s = k' a s) ->
  forall s, Throwing.bind m k s = Throwing.bind m k' s.
Proof.
  intros Hk s. unfold Throwing.bind.
  destruct (m s); [rewrite Hk | |]; reflexivity.
Qed.

Lemma throwing_call_ret {W G E : Type} (plugins : Throwing.Plugins W E)
    (f : RegFn) (r : Registrar) (s : Sys W G) :
  Throwing.call plugins f r s
  = Throwing.bind (Throwing.call plugins f r)
      (fun _ => Throwing.ret tt) s.
Proof.
  unfold Throwing.bind, Throwing.call, Throwing.ret.
  destruct (plugins f r (host s)); reflexivity.
Qed.

Lemma throwing_RegisterPlugins_unrolled {W G E : Type}
    (plugins : Throwing.Plugins W E)
    (registry : option (Throwing.PluginRegistry W E)) (s : Sys W G) :
  Throwing.RegisterPlugins plugins registry s
  = Throwing.register_all plugins registry registrations s.
Proof.
  unfold Throwing.RegisterPlugins, registrations.
  cbn [Throwing.register_all].
  repeat (apply throwing_bind_ext; intros).
  apply throwing_call_ret.
Qed.

(** What a run of a table of calls comes to: all of them made, or the
    calls up to the first one that throws. *)
Lemma throwing_register_all_runs {W G E : Type}
    (plugins : Throwing.Plugins W E)
    (registry : Throwing.PluginRegistry W E) (l : list (string * RegFn)) :
  forall s : Sys W G,
    match Throwing.register_all plugins (Some registry) l s with
    | Throwing.Done _ s' t =>
        app s' = app s
        /\ map step_of t = steps_of_table l
        /\ registered t = map snd l
        /\ Throwing.completes plugins registry (host s) t (host s')
    | Throwing.Thrown e c s' t =>
        app s' = app s
        /\ (exists rest,
               steps_of_table l
               = map step_of t ++ Throwing.step_of_attempt c :: rest)
        /\ exists w,
             Throwing.completes plugins registry (host s) t w
             /\ Throwing.threw plugins registry c w e (host s')
    | Throwing.Undefined _ => False
    end.
Proof.
  induction l as [| [name f] l IH]; intro s.
  - cbn. repeat split. constructor.
  - cbn [Throwing.register_all].
    unfold Throwing.bind at 1, Throwing.get_registrar.
    unfold Throwing.bind at 1, Throwing.deref.
    destruct (Throwing.GetRegistrarForPlugin registry name (host s))
      as [r w1 | e w1] eqn:Hget; cbn [app host List.app].
    + unfold Throwing.bind at 1, Throwing.call. cbn [app host].
      destruct (plugins f r w1) as [[] w2 | e w2] eqn:Hcall.
      * specialize (IH {| host := w2; app := app s |}).
        destruct (Throwing.register_all plugins (Some registry) l _)
          as [[] s' t | e c s' t | t]; cbn in IH |- *.
        -- destruct IH as (Happ & Hsteps & Hreg & Hdone).
           rewrite Hsteps, Hreg. repeat split; try assumption.
           eapply Throwing.completes_lookup; [exact Hget |].
           eapply Throwing.completes_call; [exact Hcall | exact Hdone].
        -- destruct IH as (Happ & [rest Hsteps] & w & Hdone & Hthrew).
           split; [assumption |]. split.
           ++ exists rest. unfold steps_of_table in *. cbn.
              now rewrite Hsteps.
           ++ exists w. split; [| assumption].
              eapply Throwing.completes_lookup; [exact Hget |].
              eapply Throwing.completes_call; [exact Hcall | exact Hdone].
        -- exact IH.
      * cbn. split; [reflexivity |]. split.
        -- exists (steps_of_table l). reflexivity.
        -- exists w1. split; [| exact Hcall].
           eapply Throwing.completes_lookup; [exact Hget | constructor].
    + cbn. split; [reflexivity |]. split.
      * exists (Invoke f :: steps_of_table l). reflexivity.
      * exists (host s). split; [constructor | exact Hget].
Qed.

(** Over a registry and entry points that always return, the two
    embeddings of [RegisterPlugins] are the same run. *)
Lemma returning_register_all {W G : Type} (E : Type) (plugins : Plugins W)
    (registry : PluginRegistry W) (l : list (string * RegFn)) :
  forall s : Sys W G,
    Throwing.register_all (returning_plugins E plugins)
      (Some (returning_registry E registry)) l s
    = returning_outcome E (register_all plugins (Some registry) l s).
Proof.
  induction l as [| [name f] l IH]; intro s; [reflexivity |].
  rewrite register_all_cons. cbv zeta.
  cbn [Throwing.register_all].
  unfold Throwing.bind, Throwing.get_registrar, Throwing.deref,
    Throwing.call.
  cbn. rewrite IH.
  destruct (register_all plugins (Some registry) l _); reflexivity.
Qed.

Lemma returning_RegisterPlugins {W G : Type} (E : Type)
    (plugins : Plugins W) (registry : PluginRegistry W) (s : Sys W G) :
  Throwing.RegisterPlugins (returning_plugins E plugins)
    (Some (returning_registry E registry)) s
  = returning_outcome E (RegisterPlugins plugins (Some registry) s).
Proof.
  rewrite throwing_RegisterPlugins_unrolled, RegisterPlugins_unrolled.
  apply returning_register_all.
Qed.

(** C5, against the claim as stated: when the fourth entry point fails by
    throwing, [RegisterPlugins] is left at once with that exception; three
    entry points have been called and the remaining six are skipped. *)
Lemma failed_registration_skips_later_calls :
  exists s' t,
    Throwing.RegisterPlugins faulty_plugins
      (Some (returning_registry string engine_registry)) engine_start
    = Throwing.Thrown "registration failed"
        (Throwing.Calling DesktopDropPluginRegisterWithRegistrar 4%N) s' t
    /\ registered t
       = [AutoUpdaterPluginRegisterWithRegistrar;
          BatteryPlusWindowsPluginRegisterWithRegistrar;
          ConnectivityPlusWindowsPluginRegisterWithRegistrar]
    /\ length (requested t) = 4.
Proof.
  eexists; eexists. split; [vm_compute; reflexivity |].
  split; reflexivity.
Qed.

(** C5, amended: [RegisterPlugins] returns nothing and handles no error:
    it tests no result, raises nothing of its own and catches nothing.  A
    run on a registry object ends in one of two ways.  Either every call
    returned, and then all ten lookups and all ten entry points were made,
    in source order, whatever the calls did to the host.  Or a lookup or an
    entry point threw, and then the run is left with that very exception,
    the calls before it having returned and the calls after it not made.
    In particular all ten entry points are called whenever no call
    throws. *)
Theorem RegisterPlugins_leaves_on_first_exception :
  forall (W G E : Type) (plugins : Throwing.Plugins W E)
         (registry : Throwing.PluginRegistry W E) (s : Sys W G),
    match Throwing.RegisterPlugins plugins (Some registry) s with
    | Throwing.Done _ s' t =>
        app s' = app s
        /\ map step_of t = steps_of_table registrations
        /\ registered t = map snd registrations
        /\ Throwing.completes plugins registry (host s) t (host s')
    | Throwing.Thrown e c s' t =>
        app s' = app s
        /\ (exists rest,
               steps_of_table registrations
               = map step_of t ++ Throwing.step_of_attempt c :: rest)
        /\ exists w,
             Throwing.completes plugins registry (host s) t w
             /\ Throwing.threw plugins registry c w e (host s')
    | Throwing.Undefined _ => False
    end
    /\ ((forall name w, exists r w',
            Throwing.GetRegistrarForPlugin registry name w
            = Throwing.Returns r w') ->
        (forall f r w, exists w', plugins f r w = Throwing.Returns tt w') ->
        exists s' t,
          Throwing.RegisterPlugins plugins (Some registry) s
          = Throwing.Done tt s' t
          /\ registered t = map snd registrations).
Proof.
  intros W G E plugins registry s.
  pose proof (throwing_register_all_runs plugins registry registrations s)
    as Hrun.
  rewrite <- throwing_RegisterPlugins_unrolled in Hrun.
  split; [exact Hrun |].
  intros Hreg Hplug.
  destruct (Throwing.RegisterPlugins plugins (Some registry) s)
    as [[] s' t | e c s' t | t].
  - exists s', t. split; [reflexivity | apply Hrun].
  - exfalso. destruct Hrun as (_ & _ & w & _ & Hthrew).
    destruct c as [name | f arg]; cbn in Hthrew.
    + destruct (Hreg name w) as (r & w' & Hret). congruence.
    + destruct (Hplug f arg w) as (w' & Hret). congruence.
  - contradiction.
Qed.

(** C6: a run changes the host's world by the ten lookups on the registry
    and the ten calls of entry points, made in the order of the events and
    with the registrars the registry returned, and by nothing else; the
    application's own memory is left as it was. *)
Theorem RegisterPlugins_only_effect :
  forall (W G : Type) (plugins : Plugins W) (registry : PluginRegistry W)
         (s : Sys W G),
  exists s' t,
    RegisterPlugins plugins (Some registry) s = Done tt s' t
    /\ app s' = app s
    /\ host s' = replay plugins registry t (host s)
    /\ answers_match plugins registry t (host s) = true
    /\ passed t = returned t
    /\ length (requested t) = 10
    /\ length (registered t) = 10
    /\ length t = 20.
Proof.
  intros W G plugins registry s. run_registrant plugins registry s.
  rewrite passed_events, returned_events, requested_events,
    registered_events, length_events, Hnames, Hfns.
  assert (Hlen : length ps = 10)
    by (rewrite <- (length_map plugin_name), Hnames; reflexivity).
  rewrite Hlen. repeat split; assumption.
Qed.

(** C7: on every registry the run completes, and it consists of exactly
    ten lookup-and-register pairs: twenty events, no name asked for twice
    and no entry point called twice. *)
Theorem RegisterPlugins_terminates_after_ten_pairs :
  forall (W G : Type) (plugins : Plugins W) (registry : PluginRegistry W)
         (s : Sys W G),
  exists s' t ps,
    RegisterPlugins plugins (Some registry) s = Done tt s' t
    /\ call_pairs t = Some ps
    /\ length ps = 10
    /\ length t = 20
    /\ NoDup (map plugin_name ps)
    /\ NoDup (map entry_point ps).
Proof.
  intros W G plugins registry s.
  destruct (RegisterPlugins_runs plugins registry s)
    as (s' & ps & Hrun & Hnames & Hfns & _).
  exists s', (flat_map registration_events ps), ps.
  assert (Hlen : length ps = 10)
    by (rewrite <- (length_map plugin_name), Hnames; reflexivity).
  rewrite length_events, Hlen, Hnames, Hfns.
  repeat split; try assumption.
  - apply call_pairs_events.
  - apply registrations_names_distinct.
  - apply registrations_entry_points_distinct.
Qed.

(** C8: the packages of the entry points called in a run stand for the
    ten capabilities the spec lists, each of them once and no package
    outside the list. *)
Theorem RegisterPlugins_registers_stated_capabilities :
  forall (W G : Type) (plugins : Plugins W) (registry : PluginRegistry W)
         (s : Sys W G),
  exists s' t caps,
    RegisterPlugins plugins (Some registry) s = Done tt s' t
    /\ map (fun f => capability_of_package (package f)) (registered t)
       = map Some caps
    /\ Permutation caps stated_capabilities
    /\ NoDup caps.
Proof.
  intros W G plugins registry s.
  destruct (RegisterPlugins_runs plugins registry s)
    as (s' & ps & Hrun & _ & Hfns & _).
  exists s', (flat_map registration_events ps),
    [AutoUpdate; BatteryStatus; Connectivity; DragAndDrop; SecureStorage;
     Hotkeys; ScreenInfo; SystemTray; UrlLaunching; WindowManagement].
  rewrite registered_events, Hfns.
  repeat split; try assumption.
  - exact (Permutation_cons_append
             [BatteryStatus; Connectivity; DragAndDrop; SecureStorage;
              Hotkeys; ScreenInfo; SystemTray; UrlLaunching;
              WindowManagement] AutoUpdate).
  - repeat constructor; cbn; intuition discriminate.
Qed.

(** C9: [RegisterPlugins] does not test [registry].  Given the null
    pointer it reaches undefined behaviour at its first step, before any
    lookup or call; given a registry object it completes, all ten uses of
    the pointer included.  So a run is undefined exactly when [registry]
    is null. *)
Theorem RegisterPlugins_defined_iff_registry_nonnull :
  forall (W G : Type) (plugins : Plugins W),
    (forall s : Sys W G, RegisterPlugins plugins None s = Undefined [])
    /\ (forall (registry : option (PluginRegistry W)) (s : Sys W G),
          match RegisterPlugins plugins registry s with
          | Done _ _ t => registry <> None /\ length (requested t) = 10
          | Undefined t => registry = None /\ t = []
          end).
Proof.
  intros W G plugins. split; [reflexivity |].
  intros [registry |] s.
  - destruct (RegisterPlugins_runs plugins registry s)
      as (s' & ps & Hrun & Hnames & _).
    rewrite Hrun, requested_events, Hnames.
    split; [discriminate | reflexivity].
  - rewrite RegisterPlugins_null. split; reflexivity.
Qed.

(** C10: the ten names passed to [GetRegistrarForPlugin] in a run are
    pairwise distinct, and each entry point receives the registrar
    returned for one of them. *)
Theorem RegisterPlugins_names_pairwise_distinct :
  forall (W G : Type) (plugins : Plugins W) (registry : PluginRegistry W)
         (s : Sys W G),
  exists s' t ps,
    RegisterPlugins plugins (Some registry) s = Done tt s' t
    /\ length (requested t) = 10
    /\ NoDup (requested t)
    /\ call_pairs t = Some ps
    /\ map plugin_name ps = requested t.
Proof.
  intros W G plugins registry s.
  destruct (RegisterPlugins_runs plugins registry s)
    as (s' & ps & Hrun & Hnames & _).
  exists s', (flat_map registration_events ps), ps.
  rewrite requested_events, Hnames.
  repeat split; try assumption.
  - apply registrations_names_distinct.
  - apply call_pairs_events.
Qed.

(** ** Further properties of a run *)

Lemma requested_app (t1 t2 : list Event) :
  requested (t1 ++ t2) = requested t1 ++ requested t2.
Proof.
  induction t1 as [| [name r | f arg] t1 IH]; cbn; [| rewrite IH |];
    auto.
Qed.

Lemma registered_app (t1 t2 : list Event) :
  registered (t1 ++ t2) = registered t1 ++ registered t2.
Proof.
  induction t1 as [| [name r | f arg] t1 IH]; cbn; [| | rewrite IH];
    auto.
Qed.

(** Every prefix of the events of a list of statements has as many calls
    as lookups or one call fewer, and the registrars passed in it are the
    first ones returned in it. *)
Lemma events_prefix (ps : list Registration) :
  forall k : nat,
    let p := firstn k (flat_map registration_events ps) in
    length (registered p) <= length (requested p) <= S (length (registered p))
    /\ passed p = firstn (length (registered p)) (returned p).
Proof.
  induction ps as [| q ps IH]; intro k.
  - cbn. rewrite firstn_nil. cbn. split; [lia | reflexivity].
  - destruct k as [| [| k]]; cbn; try (split; [lia | reflexivity]).
    destruct (IH k) as [Hlen Hpass]. cbn in Hlen, Hpass.
    split; [lia | now rewrite Hpass].
Qed.

(** X1: [RegisterPlugins] keeps no record of having run.  Called twice in
    a row on the same registry, it asks for the ten names twice and calls
    every entry point twice; the second round starts from the world the
    first one left. *)
Theorem RegisterPlugins_twice_registers_twice :
  forall (W G : Type) (plugins : Plugins W) (registry : PluginRegistry W)
         (s : Sys W G),
  exists s1 t1 s2 t2,
    RegisterPlugins plugins (Some registry) s = Done tt s1 t1
    /\ RegisterPlugins plugins (Some registry) s1 = Done tt s2 t2
    /\ (RegisterPlugins plugins (Some registry) ;;
        RegisterPlugins plugins (Some registry)) s = Done tt s2 (t1 ++ t2)
    /\ requested (t1 ++ t2)
       = map fst registrations ++ map fst registrations
    /\ (forall f : RegFn,
           count_occ RegFn_eq_dec (registered (t1 ++ t2)) f = 2)
    /\ app s2 = app s.
Proof.
  intros W G plugins registry s.
  destruct (RegisterPlugins_runs plugins registry s)
    as (s1 & ps1 & Hrun1 & Hnames1 & Hfns1 & Happ1 & _).
  destruct (RegisterPlugins_runs plugins registry s1)
    as (s2 & ps2 & Hrun2 & Hnames2 & Hfns2 & Happ2 & _).
  exists s1, (flat_map registration_events ps1),
         s2, (flat_map registration_events ps2).
  split; [assumption |]. split; [assumption |].
  split; [unfold bind; rewrite Hrun1, Hrun2; reflexivity |].
  rewrite requested_app, registered_app, !requested_events,
    !registered_events, Hnames1, Hnames2, Hfns1, Hfns2.
  split; [reflexivity |].
  split; [intros f; destruct f; reflexivity | congruence].
Qed.

(** X3: when the registry's answer depends on the name alone (it is
    [h name] in every world), the ten entry points receive, in order,
    [h] of the ten names of the source. *)
Theorem RegisterPlugins_passes_answer_for_name :
  forall (W G : Type) (plugins : Plugins W) (registry : PluginRegistry W)
         (h : string -> Registrar) (s : Sys W G),
    (forall name w, fst (GetRegistrarForPlugin registry name w) = h name) ->
  exists s' t,
    RegisterPlugins plugins (Some registry) s = Done tt s' t
    /\ passed t
       = map h ["AutoUpdaterPlugin"; "BatteryPlusWindowsPlugin";
                "ConnectivityPlusWindowsPlugin"; "DesktopDropPlugin";
                "FlutterSecureStorageWindowsPlugin";
                "HotkeyManagerWindowsPluginCApi"; "ScreenRetrieverPlugin";
                "SystemTrayPlugin"; "UrlLauncherWindows";
                "WindowManagerPlugin"].
Proof.
  intros W G plugins registry h s Hh.
  run_registrant plugins registry s.
  rewrite passed_events,
    (answers_of_names plugins registry h Hh ps (host s) Hans), Hnames.
  reflexivity.
Qed.

Lemma RegisterPlugins_passes_answer_for_name_witness :
  (forall name w,
      fst (GetRegistrarForPlugin named_registry name w) = slot_of name)
  /\ exists s' t,
       RegisterPlugins engine_plugins (Some named_registry) engine_start
       = Done tt s' t
       /\ passed t
          = map slot_of
              ["AutoUpdaterPlugin"; "BatteryPlusWindowsPlugin";
               "ConnectivityPlusWindowsPlugin"; "DesktopDropPlugin";
               "FlutterSecureStorageWindowsPlugin";
               "HotkeyManagerWindowsPluginCApi"; "ScreenRetrieverPlugin";
               "SystemTrayPlugin"; "UrlLauncherWindows";
               "WindowManagerPlugin"].
Proof.
  assert (H : forall name w,
             fst (GetRegistrarForPlugin named_registry name w)
             = slot_of name) by reflexivity.
  split; [exact H |].
  apply (RegisterPlugins_passes_answer_for_name
           Engine nat engine_plugins named_registry slot_of engine_start H).
Defined.

(** X4: when the registry's answer depends on the name alone and differs
    for different names of the source, no two entry points are handed the
    same registrar. *)
Theorem RegisterPlugins_distinct_registrars :
  forall (W G : Type) (plugins : Plugins W) (registry : PluginRegistry W)
         (h : string -> Registrar) (s : Sys W G),
    (forall name w, fst (GetRegistrarForPlugin registry name w) = h name) ->
    (forall n1 n2,
        In n1 (map fst registrations) -> In n2 (map fst registrations) ->
        h n1 = h n2 -> n1 = n2) ->
  exists s' t,
    RegisterPlugins plugins (Some registry) s = Done tt s' t
    /\ length (passed t) = 10
    /\ NoDup (passed t).
Proof.
  intros W G plugins registry h s Hh Hinj.
  run_registrant plugins registry s.
  rewrite passed_events,
    (answers_of_names plugins registry h Hh ps (host s) Hans), Hnames.
  split; [reflexivity |].
  apply NoDup_map_NoDup_ForallPairs;
    [| exact registrations_names_distinct].
  intros n1 n2 H1 H2. now apply Hinj.
Qed.

Lemma RegisterPlugins_distinct_registrars_witness :
  (forall name w,
      fst (GetRegistrarForPlugin named_registry name w) = slot_of name)
  /\ (forall n1 n2,
         In n1 (map fst registrations) -> In n2 (map fst registrations) ->
         slot_of n1 = slot_of n2 -> n1 = n2)
  /\ exists s' t,
       RegisterPlugins engine_plugins (Some named_registry) engine_start
       = Done tt s' t
       /\ length (passed t) = 10
       /\ NoDup (passed t).
Proof.
  assert (Hh : forall name w,
             fst (GetRegistrarForPlugin named_registry name w)
             = slot_of name) by reflexivity.
  assert (Hinj : forall n1 n2,
             In n1 (map fst registrations) ->
             In n2 (map fst registrations) ->
             slot_of n1 = slot_of n2 -> n1 = n2).
  { intros n1 n2 H1 H2 Heq. simpl in H1, H2.
    repeat (destruct H1 as [<- | H1]); try contradiction;
      repeat (destruct H2 as [<- | H2]); try contradiction;
      first [reflexivity | vm_compute in Heq; discriminate]. }
  split; [exact Hh |]. split; [exact Hinj |].
  apply (RegisterPlugins_distinct_registrars
           Engine nat engine_plugins named_registry slot_of engine_start
           Hh Hinj).
Defined.

(** X5: at every point of a run at most one registrar is in flight: after
    any number of events there are as many calls of entry points as
    lookups, or one fewer, and the registrars passed so far are the first
    ones returned, in the same order.  No entry point is called before a
    lookup, and no second lookup is made before the first registrar has
    been handed over. *)
Theorem RegisterPlugins_one_registrar_in_flight :
  forall (W G : Type) (plugins : Plugins W) (registry : PluginRegistry W)
         (s : Sys W G),
  exists s' t,
    RegisterPlugins plugins (Some registry) s = Done tt s' t
    /\ forall k : nat,
         let p := firstn k t in
         length (registered p) <= length (requested p)
                               <= S (length (registered p))
         /\ passed p = firstn (length (registered p)) (returned p).
Proof.
  intros W G plugins registry s. run_registrant plugins registry s.
  apply events_prefix.
Qed.
